(** * function-go-sdk: the response stream and the authenticated client

    A shallow embedding of [sdk.go] (package [function_go_sdk]).  Go values
    are Rocq values, a nilable [error] is an [option error], a method with
    a pointer receiver takes the receiver's state and returns the new one,
    and the calls that reach the network thread a [World] that records
    every HTTP request handed to an HTTP client.

    The package is written against [connectrpc.com/connect] and
    [net/http]; the few functions of those libraries that [sdk.go] calls
    are embedded in the modules [http] and [connect] below. *)

From Stdlib Require Import Ascii String.
From stdpp Require Import base option list strings gmap.

Open Scope string_scope.

(** ** Errors *)

(** The [error] values that can flow through the package: the sentinel of
    [io], the two sentinels [sdk.go] declares with [errors.New], and the
    errors of the RPC layer, which the package treats as opaque. *)
Inductive error : Type :=
| io_EOF
| MissingApiKeyError
| TruncatedStreamResponseError
| RpcError (code : string).

#[global] Instance error_eq_dec : EqDecision error.
Proof. solve_decision. Defined.

(** [errors.Is(err, io.EOF)] on the errors above. *)
Definition is_EOF (e : error) : bool :=
  match e with io_EOF => true | _ => false end.

(** Every Go type has a zero value; [var empty TOut] reads it. *)
Class Zero (T : Type) := zero : T.

#[global] Instance string_zero : Zero string := "".

(** ** The server stream, as [ResponseStream] uses it

    [ResponseStream] calls four methods of
    [*connect.ServerStreamForClient[TIn]]: [Receive], [Msg], [Err] and
    [Close].  The wrapper is stated over any handle with these methods;
    [connect.ServerStreamForClient] below is the instance the package
    uses. *)
Class ServerStream (S TIn : Type) := {
  Receive : S -> bool * S;
  Msg : S -> TIn;
  Err : S -> option error;
  CloseStream : S -> option error * S
}.

(** ** ResponseStream *)

Record ResponseStream (S TIn TOut : Type) := mkResponseStream {
  isClosed : bool;
  stream : S;
  transformer : TIn -> TOut
}.
Arguments mkResponseStream {S TIn TOut}.
Arguments isClosed {S TIn TOut}.
Arguments stream {S TIn TOut}.
Arguments transformer {S TIn TOut}.

Section ResponseStreamOps.
Context {S TIn TOut : Type} `{!ServerStream S TIn} `{!Zero TOut}.

Definition IsClosed (r : ResponseStream S TIn TOut) : bool :=
  isClosed r.

(** [Read]: the pair Go returns, and the receiver after the call. *)
Definition Read (r : ResponseStream S TIn TOut)
  : (TOut * option error) * ResponseStream S TIn TOut :=
  let empty : TOut := zero in
  if isClosed r then ((empty, Some io_EOF), r)
  else
    let '(ok, s) := Receive (stream r) in
    if negb ok then
      ((empty, Some io_EOF), mkResponseStream true s (transformer r))
    else
      ((transformer r (Msg s), Err s),
       mkResponseStream (isClosed r) s (transformer r)).

(** The first statement of [Close]: [r.isClosed = true]. *)
Definition markClosed (r : ResponseStream S TIn TOut)
  : ResponseStream S TIn TOut :=
  mkResponseStream true (stream r) (transformer r).

(** The second statement of [Close]: [return r.stream.Close()]. *)
Definition teardown (r : ResponseStream S TIn TOut)
  : option error * ResponseStream S TIn TOut :=
  let '(e, s) := CloseStream (stream r) in
  (e, mkResponseStream (isClosed r) s (transformer r)).

Definition Close (r : ResponseStream S TIn TOut)
  : option error * ResponseStream S TIn TOut :=
  teardown (markClosed r).

(** A caller's use of a stream: a sequence of method calls, each with
    what it returned. *)
Inductive call : Type := CallRead | CallClose | CallIsClosed.

Inductive returned : Type :=
| ReadReturned (v : TOut) (e : option error)
| CloseReturned (e : option error)
| IsClosedReturned (b : bool).

Definition step (c : call) (r : ResponseStream S TIn TOut)
  : returned * ResponseStream S TIn TOut :=
  match c with
  | CallRead => let '((v, e), r') := Read r in (ReadReturned v e, r')
  | CallClose => let '(e, r') := Close r in (CloseReturned e, r')
  | CallIsClosed => (IsClosedReturned (IsClosed r), r)
  end.

Fixpoint run (cs : list call) (r : ResponseStream S TIn TOut)
  : list returned * ResponseStream S TIn TOut :=
  match cs with
  | [] => ([], r)
  | c :: cs' =>
      let '(o, r') := step c r in
      let '(os, r'') := run cs' r' in
      (o :: os, r'')
  end.

(** What a call may return on a closed stream: [Read] gives the zero
    value with [io.EOF], [IsClosed] gives [true]; [Close] gives whatever
    the teardown reports. *)
Definition closed_answer (o : returned) : Prop :=
  match o with
  | ReadReturned v e => v = zero /\ e = Some io_EOF
  | CloseReturned _ => True
  | IsClosedReturned b => b = true
  end.

(** The events that close a stream: it is closed already, [Close] is
    called, or [Read] finds that [Receive] reports no element. *)
Inductive closes : ResponseStream S TIn TOut -> ResponseStream S TIn TOut -> Prop :=
| closes_closed r : isClosed r = true -> closes r r
| closes_Close r : closes r (Close r).2
| closes_Read r : (Receive (stream r)).1 = false -> closes r (Read r).2.

End ResponseStreamOps.

(** [wrapStream] *)
Definition wrapStream {S TIn TOut : Type} (stream : S) (transformer : TIn -> TOut)
  : ResponseStream S TIn TOut :=
  mkResponseStream false stream transformer.

(** ** The messages of the gateway ([apigatewayv1])

    The request and response messages of the unary calls and the request
    of the streaming call are opaque to the package: it hands them over
    unchanged, so they are kept in serialized form.  Of a stream element
    the package reads two fields, [Response.Role] and [Response.Content].
    Both are read with a plain field access through the [Response]
    pointer, so the elements modelled here are the ones that carry the
    sub-message. *)
Module apigatewayv1.

Abbreviation ChatCompleteRequest := string (only parsing).
Abbreviation ChatCompleteResponse := string (only parsing).
Abbreviation ChatCompleteStreamRequest := string (only parsing).
Abbreviation EmbedRequest := string (only parsing).
Abbreviation EmbedResponse := string (only parsing).
Abbreviation TextToImageRequest := string (only parsing).
Abbreviation TextToImageResponse := string (only parsing).
Abbreviation TranscribeRequest := string (only parsing).
Abbreviation TranscribeResponse := string (only parsing).

Record ChatMessage := mkChatMessage {
  Role : string;
  Content : string
}.

Record ChatCompleteStreamResponse := mkChatCompleteStreamResponse {
  Response : ChatMessage
}.

#[global] Instance ChatCompleteStreamResponse_zero : Zero ChatCompleteStreamResponse :=
  mkChatCompleteStreamResponse (mkChatMessage "" "").

End apigatewayv1.

(** ** [net/http]: headers, requests and clients *)
Module http.

(** [http.Header] is a [map[string][]string]. *)
Abbreviation Header := (gmap string (list string)).

Definition isLower (c : ascii) : bool :=
  (97 <=? nat_of_ascii c)%nat && (nat_of_ascii c <=? 122)%nat.

Definition isUpper (c : ascii) : bool :=
  (65 <=? nat_of_ascii c)%nat && (nat_of_ascii c <=? 90)%nat.

Definition isDigit (c : ascii) : bool :=
  (48 <=? nat_of_ascii c)%nat && (nat_of_ascii c <=? 57)%nat.

(** The bytes of an HTTP token: letters, digits and
    [! # $ % & ' * + - . ^ _ ` | ~]. *)
Definition validHeaderFieldByte (c : ascii) : bool :=
  isLower c || isUpper c || isDigit c
  || bool_decide (nat_of_ascii c ∈ [33; 35; 36; 37; 38; 39; 42; 43; 45; 46; 94; 95; 96; 124; 126]%nat).

Definition toUpper (c : ascii) : ascii := ascii_of_nat (nat_of_ascii c - 32).
Definition toLower (c : ascii) : ascii := ascii_of_nat (nat_of_ascii c + 32).

(** First letter upper case, and upper case after each dash. *)
Fixpoint canonicalize (upper : bool) (s : string) : string :=
  match s with
  | EmptyString => EmptyString
  | String c s' =>
      let c' := if upper && isLower c then toUpper c
                else if negb upper && isUpper c then toLower c
                else c in
      String c' (canonicalize (Ascii.eqb c' "-") s')
  end.

(** [textproto.CanonicalMIMEHeaderKey]: a key with a byte that is not a
    token byte is returned unchanged. *)
Definition CanonicalMIMEHeaderKey (s : string) : string :=
  if forallb validHeaderFieldByte (list_ascii_of_string s)
  then canonicalize true s else s.

(** [Header.Set] and [Header.Get] ([Set] is a keyword here). *)
Definition Header_Set (h : Header) (key value : string) : Header :=
  <[CanonicalMIMEHeaderKey key := [value]]> h.

Definition Header_Get (h : Header) (key : string) : string :=
  match h !! CanonicalMIMEHeaderKey key with
  | Some (v :: _) => v
  | _ => ""
  end.

(** The five procedures of the gateway service. *)
Inductive Procedure : Type :=
| ChatCompleteProcedure
| ChatCompleteStreamProcedure
| EmbedProcedure
| TextToImageProcedure
| TranscribeProcedure.

(** An outgoing request.  Its URL is the base URL of the client followed
    by the path of the procedure; the two parts are kept apart. *)
Record Request := mkRequest {
  BaseURL : string;
  Path : Procedure;
  Header_ : Header;
  Body : string
}.

(** The answer to a request, as the RPC layer decodes it.
    [sendErr]: a failure on the client's side while the request is sent,
    which fails the call itself.  [unary]: the message or the error a
    unary call ends with.  [frames], [trailer], [closeErr]: the elements
    a streaming call delivers, the error that follows them ([io.EOF] for
    a clean end, anything else for a failure of the network or of the
    peer), and what closing the response reports. *)
Record Response := mkResponse {
  sendErr : option error;
  unary : string + error;
  frames : list apigatewayv1.ChatCompleteStreamResponse;
  trailer : error;
  closeErr : option error
}.

(** An implementation of the [HttpClient] interface: [http.DefaultClient],
    which talks to the network, or a client of the caller's. *)
Inductive Client : Type :=
| DefaultClient
| UserClient (Do : Request -> Response).

End http.

(** ** The world: the network and the requests sent so far *)
Record World := mkWorld {
  network : http.Request -> http.Response;
  sent : list http.Request
}.

Definition M (A : Type) : Type := World -> A * World.

#[global] Instance M_ret : MRet M := fun A a w => (a, w).

#[global] Instance M_bind : MBind M :=
  fun A B k m w => let '(a, w') := m w in k a w'.

(** [httpClient.Do(req)]: the request goes out and is answered. *)
Definition Do (c : http.Client) (req : http.Request) : M http.Response :=
  fun w =>
    (match c with
     | http.DefaultClient => network w req
     | http.UserClient f => f req
     end,
     mkWorld (network w) (sent w ++ [req])%list).

(** ** [connectrpc.com/connect] *)
Module connect.

(** [connect.Request[T]] and [connect.Response[T]]: a message and the
    headers that travel with it. *)
Record Request (T : Type) := mkRequest {
  req_Msg : T;
  req_Header : http.Header
}.
Arguments mkRequest {T}.
Arguments req_Msg {T}.
Arguments req_Header {T}.

Definition NewRequest {T : Type} (message : T) : Request T :=
  mkRequest message ∅.

Record Response (T : Type) := mkResponse {
  res_Msg : T
}.
Arguments mkResponse {T}.
Arguments res_Msg {T}.

(** [connect.UnaryFunc]: the call of a unary procedure. *)
Definition UnaryFunc : Type :=
  Request string -> M (Response string + error).

(** [connect.StreamingClientConn]: the client's end of a streaming call.
    The request side is the client it goes through, the procedure and
    the request headers; the response side is filled in when the request
    is sent. *)
Record StreamingClientConn (Res : Type) := mkConn {
  conn_httpClient : http.Client;
  conn_baseURL : string;
  conn_procedure : http.Procedure;
  RequestHeader : http.Header;
  incoming : list Res;
  conn_trailer : error;
  conn_closeErr : option error;
  responseClosed : bool
}.
Arguments mkConn {Res}.
Arguments conn_httpClient {Res}.
Arguments conn_baseURL {Res}.
Arguments conn_procedure {Res}.
Arguments RequestHeader {Res}.
Arguments incoming {Res}.
Arguments conn_trailer {Res}.
Arguments conn_closeErr {Res}.
Arguments responseClosed {Res}.

(** [conn.Receive(msg)]: the next element, or the error that ends the
    stream.  Reading a response that was closed fails. *)
Definition conn_Receive {Res : Type} (c : StreamingClientConn Res)
  : (option Res * option error) * StreamingClientConn Res :=
  if responseClosed c then ((None, Some (RpcError "canceled")), c)
  else
    match incoming c with
    | m :: rest =>
        ((Some m, None),
         mkConn (conn_httpClient c) (conn_baseURL c) (conn_procedure c)
                (RequestHeader c) rest (conn_trailer c) (conn_closeErr c)
                (responseClosed c))
    | [] => ((None, Some (conn_trailer c)), c)
    end.

(** [conn.CloseResponse()] *)
Definition CloseResponse {Res : Type} (c : StreamingClientConn Res)
  : option error * StreamingClientConn Res :=
  (conn_closeErr c,
   mkConn (conn_httpClient c) (conn_baseURL c) (conn_procedure c)
          (RequestHeader c) (incoming c) (conn_trailer c) (conn_closeErr c)
          true).

Definition StreamingClientFunc : Type :=
  http.Procedure -> StreamingClientConn apigatewayv1.ChatCompleteStreamResponse.

(** [connect.Interceptor] *)
Record Interceptor := mkInterceptor {
  WrapUnary : UnaryFunc -> UnaryFunc;
  WrapStreamingClient : StreamingClientFunc -> StreamingClientFunc
}.

(** [connect.UnaryInterceptorFunc] and its implementation of
    [Interceptor]: [WrapUnary] applies the function, and
    [WrapStreamingClient] returns [next] as it is, so an interceptor of
    this type has no effect on streaming calls. *)
Definition UnaryInterceptorFunc : Type := UnaryFunc -> UnaryFunc.

Definition asInterceptor (f : UnaryInterceptorFunc) : Interceptor :=
  mkInterceptor f (fun next => next).

(** [connect.WithInterceptors]: the first interceptor is the outermost. *)
Definition chain (interceptors : list Interceptor) : Interceptor :=
  mkInterceptor
    (fun next => foldr (fun i f => WrapUnary i f) next interceptors)
    (fun next => foldr (fun i f => WrapStreamingClient i f) next interceptors).

Inductive ClientOption : Type :=
| WithInterceptors (interceptors : list Interceptor).

(** [connect.Client]: the client of one procedure.  Its URL is taken to
    be well formed; a client made with a URL that does not parse fails
    every call before anything is sent. *)
Record Client := mkClient {
  httpClient : http.Client;
  baseURL : string;
  procedure : http.Procedure;
  interceptor : Interceptor
}.

Definition NewClient (httpClient : http.Client) (baseURL : string)
    (procedure : http.Procedure) (opt : ClientOption) : Client :=
  match opt with
  | WithInterceptors interceptors =>
      mkClient httpClient baseURL procedure (chain interceptors)
  end.

(** The unary call below the interceptors: send the request with the
    headers it now has and decode the answer. *)
Definition unaryFunc (c : Client) : UnaryFunc :=
  fun request =>
    answer ← Do (httpClient c)
                (http.mkRequest (baseURL c) (procedure c)
                                (req_Header request) (req_Msg request));
    mret match http.sendErr answer with
         | Some e => inr e
         | None =>
             match http.unary answer with
             | inl m => inl (mkResponse m)
             | inr e => inr e
             end
         end.

(** [Client.CallUnary] *)
Definition CallUnary (c : Client) (request : Request string)
  : M (Response string + error) :=
  WrapUnary (interceptor c) (unaryFunc c) request.

(** [connect.ServerStreamForClient[Res]] *)
Record ServerStreamForClient (Res : Type) := mkServerStream {
  conn : StreamingClientConn Res;
  msg : option Res;
  constructErr : option error;
  receiveErr : option error
}.
Arguments mkServerStream {Res}.
Arguments conn {Res}.
Arguments msg {Res}.
Arguments constructErr {Res}.
Arguments receiveErr {Res}.

Section ServerStreamForClient.
Context {Res : Type} `{!Zero Res}.

(** [Receive] advances the stream; it returns [false] when the stream
    stops, at its end or on an error, and the error is then kept for
    [Err]. *)
Definition ServerStream_Receive (s : ServerStreamForClient Res)
  : bool * ServerStreamForClient Res :=
  if bool_decide (constructErr s ≠ None) || bool_decide (receiveErr s ≠ None)
  then (false, s)
  else
    let '((m, e), c) := conn_Receive (conn s) in
    (bool_decide (e = None),
     mkServerStream c (Some (default zero m)) (constructErr s) e).

Definition ServerStream_Msg (s : ServerStreamForClient Res) : Res :=
  default zero (msg s).

(** [Err] returns the first error that is not [io.EOF]. *)
Definition ServerStream_Err (s : ServerStreamForClient Res) : option error :=
  match constructErr s with
  | Some e => Some e
  | None =>
      match receiveErr s with
      | Some e => if is_EOF e then None else Some e
      | None => None
      end
  end.

Definition ServerStream_Close (s : ServerStreamForClient Res)
  : option error * ServerStreamForClient Res :=
  match constructErr s with
  | Some e => (Some e, s)
  | None =>
      let '(e, c) := CloseResponse (conn s) in
      (e, mkServerStream c (msg s) (constructErr s) (receiveErr s))
  end.

#[global] Instance ServerStreamForClient_stream
  : ServerStream (ServerStreamForClient Res) Res :=
  {| Receive := ServerStream_Receive;
     Msg := ServerStream_Msg;
     Err := ServerStream_Err;
     CloseStream := ServerStream_Close |}.

End ServerStreamForClient.

(** [Client.CallServerStream]: the connection is made through
    [WrapStreamingClient], the headers of the request are merged into
    the headers of the connection, and the request is sent. *)
Definition mergeHeaders (into from : http.Header) : http.Header :=
  union_with (fun a b : list string => Some (a ++ b)%list) into
             (filter (fun kv : string * list string => kv.2 ≠ []) from).

Definition newConn (c : Client)
  : StreamingClientConn apigatewayv1.ChatCompleteStreamResponse :=
  WrapStreamingClient (interceptor c)
    (fun spec => mkConn (httpClient c) (baseURL c) spec ∅ [] io_EOF None false)
    (procedure c).

Definition CallServerStream (c : Client) (request : Request string)
  : M (ServerStreamForClient apigatewayv1.ChatCompleteStreamResponse + error) :=
  let conn := newConn c in
  let header := mergeHeaders (RequestHeader conn) (req_Header request) in
  answer ← Do (conn_httpClient conn)
              (http.mkRequest (conn_baseURL conn) (conn_procedure conn)
                              header (req_Msg request));
  mret match http.sendErr answer with
       | Some e => inr e
       | None =>
           inl (mkServerStream
                  (mkConn (conn_httpClient conn) (conn_baseURL conn)
                          (conn_procedure conn) header
                          (http.frames answer) (http.trailer answer)
                          (http.closeErr answer) false)
                  None None None)
       end.

End connect.

(** ** The generated service client ([apigatewayv1connect]) *)
Module apigatewayv1connect.

(** [strings.TrimRight(s, "/")] *)
Fixpoint trimSlashes (s : string) : string :=
  match s with
  | EmptyString => EmptyString
  | String c s' =>
      match trimSlashes s' with
      | EmptyString => if Ascii.eqb c "/" then EmptyString else String c EmptyString
      | t => String c t
      end
  end.

(** One [connect.Client] per procedure, all with the same HTTP client,
    base URL and options. *)
Record APIGatewayServiceClient := mkService {
  chatComplete : connect.Client;
  chatCompleteStream : connect.Client;
  embed : connect.Client;
  textToImage : connect.Client;
  transcribe : connect.Client
}.

Definition NewAPIGatewayServiceClient (httpClient : http.Client)
    (baseURL : string) (opts : connect.ClientOption) : APIGatewayServiceClient :=
  let baseURL := trimSlashes baseURL in
  mkService
    (connect.NewClient httpClient baseURL http.ChatCompleteProcedure opts)
    (connect.NewClient httpClient baseURL http.ChatCompleteStreamProcedure opts)
    (connect.NewClient httpClient baseURL http.EmbedProcedure opts)
    (connect.NewClient httpClient baseURL http.TextToImageProcedure opts)
    (connect.NewClient httpClient baseURL http.TranscribeProcedure opts).

Definition ChatComplete (s : APIGatewayServiceClient) :=
  connect.CallUnary (chatComplete s).
Definition ChatCompleteStream (s : APIGatewayServiceClient) :=
  connect.CallServerStream (chatCompleteStream s).
Definition Embed (s : APIGatewayServiceClient) :=
  connect.CallUnary (embed s).
Definition TextToImage (s : APIGatewayServiceClient) :=
  connect.CallUnary (textToImage s).
Definition Transcribe (s : APIGatewayServiceClient) :=
  connect.CallUnary (transcribe s).

End apigatewayv1connect.

(** ** The package itself *)

Definition DefaultBaseUrl : string := "https://api.function.network".

(** The stream of a chat completion, as the package holds it. *)
Abbreviation TokenStreamOf :=
  (ResponseStream
     (connect.ServerStreamForClient apigatewayv1.ChatCompleteStreamResponse)
     apigatewayv1.ChatCompleteStreamResponse string).

Record ChatCompleteStreamResponse := mkChatCompleteStreamResponse {
  Role : string;
  TokenStream : TokenStreamOf
}.

Definition chatCompleteStreamToStringTransformer
    (res : apigatewayv1.ChatCompleteStreamResponse) : string :=
  apigatewayv1.Content (apigatewayv1.Response res).

Record ClientOptions := mkClientOptions {
  ApiKey : string;
  HttpClient : option http.Client;
  BaseUrl : string
}.

Record Client := mkClient {
  apiKey : string;
  service : apigatewayv1connect.APIGatewayServiceClient
}.

Definition newAuthInterceptor (apiKey : string) : connect.UnaryInterceptorFunc :=
  fun next =>
    fun req =>
      let req := connect.mkRequest (connect.req_Msg req)
                   (http.Header_Set (connect.req_Header req) "x-api-key" apiKey) in
      next req.

Definition NewClient (options : ClientOptions) : option Client * option error :=
  if bool_decide (ApiKey options = "") then (None, Some MissingApiKeyError)
  else
    let httpClient :=
      match HttpClient options with
      | None => http.DefaultClient
      | Some c => c
      end in
    let baseUrl :=
      if bool_decide (BaseUrl options = "") then DefaultBaseUrl
      else BaseUrl options in
    let service :=
      apigatewayv1connect.NewAPIGatewayServiceClient httpClient baseUrl
        (connect.WithInterceptors
           [connect.asInterceptor (newAuthInterceptor (ApiKey options))]) in
    (Some (mkClient (ApiKey options) service), None).

Definition ChatComplete (c : Client) (request : apigatewayv1.ChatCompleteRequest)
  : M (option apigatewayv1.ChatCompleteResponse * option error) :=
  r ← apigatewayv1connect.ChatComplete (service c) (connect.NewRequest request);
  mret match r with
       | inr err => (None, Some err)
       | inl res => (Some (connect.res_Msg res), None)
       end.

Definition ChatCompleteStream (c : Client)
    (request : apigatewayv1.ChatCompleteStreamRequest)
  : M (option ChatCompleteStreamResponse * option error) :=
  r ← apigatewayv1connect.ChatCompleteStream (service c) (connect.NewRequest request);
  mret match r with
       | inr err => (None, Some err)
       | inl res =>
           let '(ok, res) := Receive res in
           if negb ok then (None, Some TruncatedStreamResponseError)
           else
             match Err res with
             | Some err => (None, Some err)
             | None =>
                 let firstMsg := Msg res in
                 (Some (mkChatCompleteStreamResponse
                          (apigatewayv1.Role (apigatewayv1.Response firstMsg))
                          (wrapStream res chatCompleteStreamToStringTransformer)),
                  None)
             end
       end.

Definition Embed (c : Client) (request : apigatewayv1.EmbedRequest)
  : M (option apigatewayv1.EmbedResponse * option error) :=
  r ← apigatewayv1connect.Embed (service c) (connect.NewRequest request);
  mret match r with
       | inr err => (None, Some err)
       | inl res => (Some (connect.res_Msg res), None)
       end.

Definition TextToImage (c : Client) (request : apigatewayv1.TextToImageRequest)
  : M (option apigatewayv1.TextToImageResponse * option error) :=
  r ← apigatewayv1connect.TextToImage (service c) (connect.NewRequest request);
  mret match r with
       | inr err => (None, Some err)
       | inl res => (Some (connect.res_Msg res), None)
       end.

Definition Transcribe (c : Client) (request : apigatewayv1.TranscribeRequest)
  : M (option apigatewayv1.TranscribeResponse * option error) :=
  r ← apigatewayv1connect.Transcribe (service c) (connect.NewRequest request);
  mret match r with
       | inr err => (None, Some err)
       | inl res => (Some (connect.res_Msg res), None)
       end.

(** ** Peers to run the package against *)

(** A stream element with the given role and content. *)
Definition chunk (role content : string) : apigatewayv1.ChatCompleteStreamResponse :=
  apigatewayv1.mkChatCompleteStreamResponse (apigatewayv1.mkChatMessage role content).

(** A server stream as [CallServerStream] returns it, on a connection
    that delivers [elements], then [trailer], and reports [closeErr] when
    its response is closed. *)
Definition streamOf (elements : list apigatewayv1.ChatCompleteStreamResponse)
    (trailer : error) (closeErr : option error)
  : connect.ServerStreamForClient apigatewayv1.ChatCompleteStreamResponse :=
  connect.mkServerStream
    (connect.mkConn http.DefaultClient DefaultBaseUrl
                    http.ChatCompleteStreamProcedure ∅
                    elements trailer closeErr false)
    None None None.

(** A peer that answers every request in the same way. *)
Definition peer (reply : string + error)
    (elements : list apigatewayv1.ChatCompleteStreamResponse) (trailer : error)
  : http.Request -> http.Response :=
  fun _ => http.mkResponse None reply elements trailer None.

(** A gateway that streams a role-bearing first element, then [Hello]
    and [ world], and ends the stream cleanly. *)
Definition helloPeer : http.Request -> http.Response :=
  peer (inl "ok") [chunk "assistant" ""; chunk "" "Hello"; chunk "" " world"] io_EOF.

(** A gateway that ends the stream cleanly without any element. *)
Definition silentPeer : http.Request -> http.Response :=
  peer (inl "ok") [] io_EOF.

(** A gateway that cannot be reached: every call ends with the error
    [unavailable] of the RPC layer before any element arrives. *)
Definition unreachablePeer : http.Request -> http.Response :=
  peer (inr (RpcError "unavailable")) [] (RpcError "unavailable").

(** The client with the key [key] whose service goes through the HTTP
    client [h] to the base URL [u]. *)
Definition clientOn (key : string) (h : http.Client) (u : string) : Client :=
  mkClient key
    (apigatewayv1connect.NewAPIGatewayServiceClient h u
       (connect.WithInterceptors
          [connect.asInterceptor (newAuthInterceptor key)])).

(** The client of the package's test: the key [mykey] and no other
    option. *)
Definition myClient : Client :=
  clientOn "mykey" http.DefaultClient DefaultBaseUrl.

(** Token streams to read from: one with two elements left, and one
    whose transport fails before any element. *)
Definition helloTokens : TokenStreamOf :=
  wrapStream (streamOf [chunk "" "Hello"; chunk "" " world"] io_EOF None)
             chatCompleteStreamToStringTransformer.

Definition failedTokens : TokenStreamOf :=
  wrapStream (streamOf [] (RpcError "unavailable") (Some (RpcError "canceled")))
             chatCompleteStreamToStringTransformer.

(** The answers that tell a caller the stream is closed now: any answer
    of [Close], and an answer of [Read] whose error is [io.EOF]. *)
Definition closing {TOut : Type} (o : @returned TOut) : bool :=
  match o with
  | ReadReturned _ e => bool_decide (e = Some io_EOF)
  | CloseReturned _ => true
  | IsClosedReturned _ => false
  end.


(** * Properties of the response stream *)

Section ResponseStreamProps.
Context {S TIn TOut : Type} `{!ServerStream S TIn} `{!Zero TOut}.
Implicit Types r : ResponseStream S TIn TOut.

Lemma Read_on_closed r :
  isClosed r = true -> Read r = ((zero, Some io_EOF), r).
Proof. intros Hc. unfold Read. now rewrite Hc. Qed.

Lemma Read_on_open r :
  isClosed r = false ->
  Read r =
    (if (Receive (stream r)).1
     then ((transformer r (Msg (Receive (stream r)).2), Err (Receive (stream r)).2),
           mkResponseStream false (Receive (stream r)).2 (transformer r))
     else ((zero, Some io_EOF),
           mkResponseStream true (Receive (stream r)).2 (transformer r))).
Proof.
  intros Ho. unfold Read. rewrite Ho.
  destruct (Receive (stream r)) as [[|] s]; reflexivity.
Qed.

Lemma Close_unfold r :
  Close r =
    ((CloseStream (stream r)).1,
     mkResponseStream true (CloseStream (stream r)).2 (transformer r)).
Proof.
  unfold Close, teardown, markClosed; simpl.
  now destruct (CloseStream (stream r)).
Qed.

Lemma Close_isClosed r : isClosed (Close r).2 = true.
Proof. now rewrite Close_unfold. Qed.

Lemma Read_exhausted_isClosed r :
  (Receive (stream r)).1 = false -> isClosed (Read r).2 = true.
Proof.
  intros Hr. destruct (isClosed r) eqn:Hc.
  - now rewrite Read_on_closed.
  - rewrite Read_on_open by assumption. now rewrite Hr.
Qed.

Lemma closes_isClosed r r' : closes r r' -> isClosed r' = true.
Proof.
  destruct 1 as [r Hc | r | r Hr].
  - exact Hc.
  - apply Close_isClosed.
  - now apply Read_exhausted_isClosed.
Qed.

Lemma step_on_closed c r :
  isClosed r = true ->
  closed_answer (step c r).1 /\ isClosed (step c r).2 = true.
Proof.
  intros Hc. destruct c; simpl.
  - rewrite Read_on_closed by assumption. simpl. auto.
  - rewrite Close_unfold. simpl. auto.
  - unfold IsClosed. auto.
Qed.

Lemma run_on_closed cs : forall r,
  isClosed r = true ->
  Forall closed_answer (run cs r).1 /\ isClosed (run cs r).2 = true.
Proof.
  induction cs as [|c cs IH]; intros r Hc; simpl.
  - split; [constructor | exact Hc].
  - destruct (step_on_closed c r Hc) as [Ha Hc'].
    destruct (step c r) as [o r1]; simpl in Ha, Hc'.
    destruct (IH r1 Hc') as [Hall Hend].
    destruct (run cs r1) as [os r2]; simpl in *.
    split; [constructor; assumption | assumption].
Qed.

(** C1.  Once a stream is closed -- by [Close], or by a [Read] that
    found the underlying stream without a further element -- it stays
    closed through every later sequence of calls: each later [IsClosed]
    answers [true], and each later [Read] returns the zero value with
    [io.EOF], however many there are. *)
Theorem closed_is_terminal r r' (cs : list call) :
  closes r r' ->
  isClosed r' = true
  /\ Forall closed_answer (run cs r').1
  /\ isClosed (run cs r').2 = true.
Proof.
  intros Hcl. pose proof (closes_isClosed r r' Hcl) as Hc.
  split; [exact Hc | now apply run_on_closed].
Qed.

(** C8.  [Close] first sets the flag and then asks the transport to tear
    the stream down, on a receiver that is already closed; it returns
    the error of that teardown, whatever it is; the stream is closed
    afterwards whatever the teardown reported; and any number of further
    [Close] calls behave the same way and leave it closed. *)
Theorem Close_unconditional r :
  Close r = teardown (markClosed r)
  /\ isClosed (markClosed r) = true
  /\ (Close r).1 = (CloseStream (stream r)).1
  /\ isClosed (Close r).2 = true
  /\ (Close (Close r).2).1 = (CloseStream (CloseStream (stream r)).2).1
  /\ forall n, isClosed (run (replicate (Datatypes.S n) CallClose) r).2 = true.
Proof.
  repeat split; try reflexivity.
  - now rewrite Close_unfold.
  - apply Close_isClosed.
  - now rewrite !Close_unfold.
  - intros n. simpl.
    pose proof (Close_isClosed r) as Hc.
    destruct (Close r) as [e r1]; simpl in Hc.
    pose proof (run_on_closed (replicate n CallClose) r1 Hc) as [_ Hend].
    now destruct (run (replicate n CallClose) r1).
Qed.

(** C10.  A [Read] on an open stream that finds an element returns its
    projection together with the error the transport reports for it,
    whatever that error is, and leaves the flag as it was: the stream is
    still open, and the next [Read] advances the underlying stream
    again. *)
Theorem Read_element_keeps_open r (s : S) :
  isClosed r = false ->
  Receive (stream r) = (true, s) ->
  Read r = ((transformer r (Msg s), Err s), mkResponseStream false s (transformer r))
  /\ IsClosed (Read r).2 = isClosed r
  /\ stream (Read (Read r).2).2 = (Receive s).2.
Proof.
  intros Ho Hr.
  assert (Read r = ((transformer r (Msg s), Err s),
                    mkResponseStream false s (transformer r))) as HR.
  { rewrite Read_on_open by assumption. now rewrite Hr. }
  rewrite HR. simpl. repeat split.
  - now rewrite Ho.
  - rewrite Read_on_open by reflexivity. simpl.
    now destruct (Receive s) as [[|] s'].
Qed.

End ResponseStreamProps.

(** * Properties of the server stream of connect *)

Section ConnectProps.
Context {Res : Type} `{!Zero Res}.
Implicit Types s : connect.ServerStreamForClient Res.

(** When [Receive] reports an element, [Err] has nothing to report. *)
Lemma Receive_true_Err_nil s s' :
  Receive s = (true, s') -> Err s' = None.
Proof.
  simpl. unfold connect.ServerStream_Receive, connect.ServerStream_Err.
  destruct (connect.constructErr s) as [e|] eqn:Hce; simpl; [discriminate|].
  destruct (connect.receiveErr s) as [e|] eqn:Hre; simpl; [discriminate|].
  destruct (connect.conn_Receive (connect.conn s)) as [[m e] c].
  intros [= Hb <-]. simpl.
  apply bool_decide_eq_true in Hb. now rewrite Hb.
Qed.

(** A stream without a further element stops, and the error that ended
    it is what [Err] reports afterwards, unless it is [io.EOF]. *)
Lemma Receive_at_end s :
  connect.constructErr s = None ->
  connect.receiveErr s = None ->
  connect.responseClosed (connect.conn s) = false ->
  connect.incoming (connect.conn s) = [] ->
  (Receive s).1 = false
  /\ Err (Receive s).2 =
       (if is_EOF (connect.conn_trailer (connect.conn s)) then None
        else Some (connect.conn_trailer (connect.conn s))).
Proof.
  intros Hce Hre Hcl Hin. simpl.
  unfold connect.ServerStream_Receive, connect.ServerStream_Err, connect.conn_Receive.
  rewrite Hce, Hre, Hcl, Hin. simpl. rewrite ?Hce. auto 10.
Qed.

(** A stream with a further element delivers it. *)
Lemma Receive_element s (m : Res) (rest : list Res) :
  connect.constructErr s = None ->
  connect.receiveErr s = None ->
  connect.responseClosed (connect.conn s) = false ->
  connect.incoming (connect.conn s) = m :: rest ->
  (Receive s).1 = true
  /\ Msg (Receive s).2 = m
  /\ Err (Receive s).2 = None
  /\ connect.constructErr (Receive s).2 = None
  /\ connect.receiveErr (Receive s).2 = None
  /\ connect.responseClosed (connect.conn (Receive s).2) = false
  /\ connect.incoming (connect.conn (Receive s).2) = rest
  /\ connect.conn_trailer (connect.conn (Receive s).2)
     = connect.conn_trailer (connect.conn s).
Proof.
  intros Hce Hre Hcl Hin. simpl.
  unfold connect.ServerStream_Receive, connect.ServerStream_Msg,
    connect.ServerStream_Err, connect.conn_Receive.
  rewrite Hce, Hre, Hcl, Hin. simpl. rewrite ?Hce. auto 10.
Qed.

End ConnectProps.

(** What [CallServerStream] hands back: a stream that has not been read,
    on an open response. *)
Lemma CallServerStream_fresh (c : connect.Client) (request : connect.Request string)
    (w : World) s :
  (connect.CallServerStream c request w).1 = inl s ->
  connect.msg s = None /\ connect.constructErr s = None
  /\ connect.receiveErr s = None
  /\ connect.responseClosed (connect.conn s) = false.
Proof.
  unfold connect.CallServerStream, Do, mbind, M_bind, mret, M_ret. simpl.
  destruct (http.sendErr _); [discriminate|].
  intros [= <-]. simpl. auto.
Qed.

(** * Properties of the client *)



(** A unary call of [clientOn key h u] hands [h] one request, addressed
    to [u] without its trailing slashes, with the key as its only
    header; the call returns what [h] answers. *)
Lemma clientOn_ChatComplete (key u request : string) (h : http.Client) (w : World) :
  let r := http.mkRequest (apigatewayv1connect.trimSlashes u)
             http.ChatCompleteProcedure
             (http.Header_Set ∅ "x-api-key" key) request in
  ChatComplete (clientOn key h u) request w
  = (match (Do h r w).1 with
     | http.mkResponse (Some e) _ _ _ _ => (None, Some e)
     | http.mkResponse None (inl m) _ _ _ => (Some m, None)
     | http.mkResponse None (inr e) _ _ _ => (None, Some e)
     end,
     mkWorld (network w) (sent w ++ [r])%list).
Proof.
  unfold ChatComplete, mbind, M_bind, mret, M_ret. simpl.
  destruct h as [|f]; simpl.
  - destruct (network w _) as [[e1|] [m|e2] ? ? ?]; reflexivity.
  - destruct (f _) as [[e1|] [m|e2] ? ? ?]; reflexivity.
Qed.


(** C7.  [NewClient] has two outcomes and the key alone selects between
    them: with an empty key (a key left out is the empty string) it
    returns no client and [MissingApiKeyError]; with any other key it
    returns a client and no error, whatever the other options are. *)
Theorem NewClient_validates_key_only (options : ClientOptions) :
  (ApiKey options = "" /\ NewClient options = (None, Some MissingApiKeyError))
  \/ (ApiKey options <> "" /\ exists c, NewClient options = (Some c, None)).
Proof.
  unfold NewClient. case_bool_decide as Hk.
  - left. auto.
  - right. split; [exact Hk | eexists; reflexivity].
Qed.

(** C9.  With a key, [NewClient] builds the service on
    [http.DefaultClient] when no HTTP client is given and on the given
    one otherwise, and on the base URL [https://api.function.network]
    when none is given and on the given one otherwise. *)
Theorem NewClient_defaults (key url : string) (hc : http.Client) :
  key <> "" -> url <> "" ->
  DefaultBaseUrl = "https://api.function.network"
  /\ NewClient (mkClientOptions key None "")
     = (Some (clientOn key http.DefaultClient "https://api.function.network"), None)
  /\ NewClient (mkClientOptions key (Some hc) "")
     = (Some (clientOn key hc "https://api.function.network"), None)
  /\ NewClient (mkClientOptions key None url)
     = (Some (clientOn key http.DefaultClient url), None)
  /\ NewClient (mkClientOptions key (Some hc) url)
     = (Some (clientOn key hc url), None).
Proof.
  intros Hk Hu. unfold NewClient. simpl.
  rewrite (bool_decide_eq_false_2 _ Hk), (bool_decide_eq_false_2 _ Hu).
  repeat split.
Qed.

(** C5.  When the streaming call is set up and its stream ends without
    a single element, [ChatCompleteStream] returns no response value and
    [TruncatedStreamResponseError]. *)
Theorem ChatCompleteStream_no_element (c : Client) (request : string) (w : World)
    (s : connect.ServerStreamForClient apigatewayv1.ChatCompleteStreamResponse) :
  (apigatewayv1connect.ChatCompleteStream (service c)
     (connect.NewRequest request) w).1 = inl s ->
  connect.incoming (connect.conn s) = [] ->
  (ChatCompleteStream c request w).1 = (None, Some TruncatedStreamResponseError).
Proof.
  intros Hs Hin.
  destruct (CallServerStream_fresh _ _ _ _ Hs) as (_ & Hce & Hre & Hcl).
  destruct (Receive_at_end s Hce Hre Hcl Hin) as [Hstop _].
  unfold ChatCompleteStream, mbind, M_bind, mret, M_ret.
  destruct (apigatewayv1connect.ChatCompleteStream _ _ w) as [r w'].
  simpl in Hs. subst r.
  destruct (Receive s) as [ok res]. simpl in Hstop. now subst ok.
Qed.

(** C6.  When the stream delivers a first element with the role
    [assistant] and then elements with the contents [Hello] and
    [ world], [ChatCompleteStream] returns a response with
    [Role = "assistant"] whose token stream gives [Hello] on the first
    [Read], [ world] on the second and [io.EOF] on the third. *)
Theorem ChatCompleteStream_hello_world (c : Client) (request : string) (w : World)
    (s : connect.ServerStreamForClient apigatewayv1.ChatCompleteStreamResponse)
    (m0 m1 m2 : apigatewayv1.ChatCompleteStreamResponse) :
  (apigatewayv1connect.ChatCompleteStream (service c)
     (connect.NewRequest request) w).1 = inl s ->
  connect.incoming (connect.conn s) = [m0; m1; m2] ->
  apigatewayv1.Role (apigatewayv1.Response m0) = "assistant" ->
  apigatewayv1.Content (apigatewayv1.Response m1) = "Hello" ->
  apigatewayv1.Content (apigatewayv1.Response m2) = " world" ->
  exists resp,
    (ChatCompleteStream c request w).1 = (Some resp, None)
    /\ Role resp = "assistant"
    /\ (run [CallRead; CallRead; CallRead] (TokenStream resp)).1
       = [ReadReturned "Hello" None; ReadReturned " world" None;
          ReadReturned "" (Some io_EOF)].
Proof.
  intros Hs Hin Hrole Hhello Hworld.
  destruct (CallServerStream_fresh _ _ _ _ Hs) as (Hmsg & Hce & Hre & Hcl).
  unfold ChatCompleteStream, mbind, M_bind, mret, M_ret.
  destruct (apigatewayv1connect.ChatCompleteStream _ _ w) as [r w'].
  simpl in Hs. subst r.
  destruct s as [[hc url proc hdr inc tr ce cl] m cerr rerr].
  simpl in Hmsg, Hce, Hre, Hcl, Hin. subst m cerr rerr cl inc.
  eexists. split; [reflexivity|]. split; [exact Hrole|].
  cbv [run step Read Close IsClosed TokenStream wrapStream isClosed stream transformer
       chatCompleteStreamToStringTransformer].
  simpl. unfold connect.ServerStream_Msg, connect.ServerStream_Err. simpl.
  now rewrite Hhello, Hworld.
Qed.

(** On a server stream of connect, [Read] never returns an error of the
    transport: its error is nil or [io.EOF]. *)
Lemma Read_error_nil_or_EOF {Res TOut : Type} `{!Zero Res} `{!Zero TOut}
    (r : ResponseStream (connect.ServerStreamForClient Res) Res TOut) :
  (Read r).1.2 = None \/ (Read r).1.2 = Some io_EOF.
Proof.
  destruct (isClosed r) eqn:Hc.
  - right. now rewrite Read_on_closed.
  - rewrite Read_on_open by assumption.
    destruct (Receive (stream r)) as [[|] s'] eqn:Hr; simpl.
    + left. exact (Receive_true_Err_nil _ _ Hr).
    + right. reflexivity.
Qed.

(** C4, on the code.  A stream whose transport fails with an error [e]
    instead of delivering an element: the transport reports [e], and
    [Read] returns the zero value with [io.EOF] and closes the stream,
    whether [e] is the end of the data or a failure. *)
Theorem Read_turns_failure_into_EOF {TOut : Type} `{!Zero TOut} (e : error)
    (f : apigatewayv1.ChatCompleteStreamResponse -> TOut) :
  Err (Receive (streamOf [] e None)).2 = (if is_EOF e then None else Some e)
  /\ (Read (wrapStream (streamOf [] e None) f)).1 = (zero, Some io_EOF)
  /\ isClosed (Read (wrapStream (streamOf [] e None) f)).2 = true.
Proof. repeat split. Qed.

(** C3, on the code.  Against a gateway that cannot be reached, the
    streaming call is set up, its first read stops with the error of the
    transport, and [ChatCompleteStream] returns
    [TruncatedStreamResponseError] in its place. *)
Theorem first_read_failure_becomes_truncation (request : string) :
  exists s,
    NewClient (mkClientOptions "mykey" None "") = (Some myClient, None)
    /\ (apigatewayv1connect.ChatCompleteStream (service myClient)
          (connect.NewRequest request) (mkWorld unreachablePeer [])).1 = inl s
    /\ (Receive s).1 = false
    /\ Err (Receive s).2 = Some (RpcError "unavailable")
    /\ (ChatCompleteStream myClient request (mkWorld unreachablePeer [])).1
       = (None, Some TruncatedStreamResponseError).
Proof. eexists. repeat split. Qed.

(** C2, on the code.  The client built for the key [mykey] sends the
    request of [ChatCompleteStream] with no header at all: its
    [x-api-key] is empty. *)
Theorem stream_call_lacks_key (request : string) (w : World) :
  exists r,
    NewClient (mkClientOptions "mykey" None "") = (Some myClient, None)
    /\ sent (ChatCompleteStream myClient request w).2 = (sent w ++ [r])%list
    /\ http.Header_ r = ∅
    /\ http.Header_Get (http.Header_ r) "x-api-key" = "".
Proof.
  eexists. split; [reflexivity|]. split; [reflexivity|].
  split; vm_compute; reflexivity.
Qed.

(** * The package's tests, and the theorems at concrete inputs *)

(** [TestCreateClient] *)
Example TestCreateClient :
  NewClient (mkClientOptions "mykey" None "") = (Some myClient, None).
Proof. reflexivity. Qed.

(** [TestCreateClientWithoutApiKey] *)
Example TestCreateClientWithoutApiKey :
  NewClient (mkClientOptions "" None "") = (None, Some MissingApiKeyError).
Proof. reflexivity. Qed.

(** A stream closed by a [Read] on a failed transport, then read, asked,
    closed and read again. *)
Lemma closed_is_terminal_run :
  closes failedTokens (Read failedTokens).2
  /\ (isClosed (Read failedTokens).2 = true
      /\ Forall closed_answer
           (run [CallRead; CallIsClosed; CallClose; CallRead] (Read failedTokens).2).1
      /\ isClosed
           (run [CallRead; CallIsClosed; CallClose; CallRead] (Read failedTokens).2).2
         = true).
Proof.
  split.
  - apply closes_Read. reflexivity.
  - apply (closed_is_terminal failedTokens). apply closes_Read. reflexivity.
Defined.

(** The first [Read] of [helloTokens]. *)
Lemma Read_element_keeps_open_run :
  (isClosed helloTokens = false
   /\ Receive (stream helloTokens) = (true, (Receive (stream helloTokens)).2))
  /\ (Read helloTokens
      = (("Hello", None),
         mkResponseStream false (Receive (stream helloTokens)).2
                          chatCompleteStreamToStringTransformer)
      /\ IsClosed (Read helloTokens).2 = isClosed helloTokens
      /\ stream (Read (Read helloTokens).2).2
         = (Receive (Receive (stream helloTokens)).2).2).
Proof.
  split.
  - split; reflexivity.
  - exact (Read_element_keeps_open helloTokens
             (Receive (stream helloTokens)).2 eq_refl eq_refl).
Defined.

(** [NewClient] with a key, with and without the other two options. *)
Lemma NewClient_defaults_run :
  ("mykey" <> "" /\ "http://localhost:8080/" <> "")
  /\ (DefaultBaseUrl = "https://api.function.network"
      /\ NewClient (mkClientOptions "mykey" None "")
         = (Some (clientOn "mykey" http.DefaultClient "https://api.function.network"), None)
      /\ NewClient (mkClientOptions "mykey" (Some (http.UserClient silentPeer)) "")
         = (Some (clientOn "mykey" (http.UserClient silentPeer)
                           "https://api.function.network"), None)
      /\ NewClient (mkClientOptions "mykey" None "http://localhost:8080/")
         = (Some (clientOn "mykey" http.DefaultClient "http://localhost:8080/"), None)
      /\ NewClient (mkClientOptions "mykey" (Some (http.UserClient silentPeer))
                                    "http://localhost:8080/")
         = (Some (clientOn "mykey" (http.UserClient silentPeer)
                           "http://localhost:8080/"), None)).
Proof.
  split.
  - split; discriminate.
  - apply (NewClient_defaults "mykey" "http://localhost:8080/"
             (http.UserClient silentPeer)); discriminate.
Defined.

(** [ChatCompleteStream] against a gateway that sends nothing. *)
Lemma ChatCompleteStream_no_element_run :
  ((apigatewayv1connect.ChatCompleteStream (service myClient)
      (connect.NewRequest "hi") (mkWorld silentPeer [])).1
   = inl (streamOf [] io_EOF None)
   /\ connect.incoming (connect.conn (streamOf [] io_EOF None)) = [])
  /\ (ChatCompleteStream myClient "hi" (mkWorld silentPeer [])).1
     = (None, Some TruncatedStreamResponseError).
Proof.
  split.
  - split; vm_compute; reflexivity.
  - apply (ChatCompleteStream_no_element myClient "hi" (mkWorld silentPeer [])
             (streamOf [] io_EOF None)); vm_compute; reflexivity.
Defined.

(** [ChatCompleteStream] against the gateway that says hello. *)
Lemma ChatCompleteStream_hello_world_run :
  ((apigatewayv1connect.ChatCompleteStream (service myClient)
      (connect.NewRequest "hi") (mkWorld helloPeer [])).1
   = inl (streamOf [chunk "assistant" ""; chunk "" "Hello"; chunk "" " world"]
                   io_EOF None)
   /\ apigatewayv1.Role (apigatewayv1.Response (chunk "assistant" "")) = "assistant"
   /\ apigatewayv1.Content (apigatewayv1.Response (chunk "" "Hello")) = "Hello"
   /\ apigatewayv1.Content (apigatewayv1.Response (chunk "" " world")) = " world")
  /\ exists resp,
      (ChatCompleteStream myClient "hi" (mkWorld helloPeer [])).1 = (Some resp, None)
      /\ Role resp = "assistant"
      /\ (run [CallRead; CallRead; CallRead] (TokenStream resp)).1
         = [ReadReturned "Hello" None; ReadReturned " world" None;
            ReadReturned "" (Some io_EOF)].
Proof.
  split.
  - repeat split; vm_compute; reflexivity.
  - apply (ChatCompleteStream_hello_world myClient "hi" (mkWorld helloPeer [])
             (streamOf [chunk "assistant" ""; chunk "" "Hello"; chunk "" " world"]
                       io_EOF None)
             (chunk "assistant" "") (chunk "" "Hello") (chunk "" " world"));
      vm_compute; reflexivity.
Defined.

(** * Further properties of the response stream *)

Section ClosedStreamProps.
Context {S TIn TOut : Type} `{!ServerStream S TIn} `{!Zero TOut}.
Implicit Types r : ResponseStream S TIn TOut.

(** X2.  On a closed stream, [Read] and [IsClosed] leave the receiver as
    it is: whatever the transport still holds is never received. *)
Theorem closed_reads_leave_transport r (cs : list call) :
  isClosed r = true ->
  Forall (fun c => c <> CallClose) cs ->
  (run cs r).2 = r.
Proof.
  intros Hc Hcs. induction Hcs as [|c cs Hne _ IH]; [reflexivity|].
  simpl. destruct c; [| congruence |]; simpl.
  - rewrite Read_on_closed by assumption.
    destruct (run cs r) as [os r'']. simpl in IH. now subst.
  - destruct (run cs r) as [os r'']. simpl in IH. now subst.
Qed.

End ClosedStreamProps.

Section ConnectStreamProps.
Context {Res TOut : Type} `{!Zero Res} `{!Zero TOut}.
Implicit Types r : ResponseStream (connect.ServerStreamForClient Res) Res TOut.

Lemma step_closing (c : call) r :
  IsClosed (step c r).2 = IsClosed r || closing (step c r).1.
Proof.
  unfold IsClosed. destruct c; simpl.
  - destruct (isClosed r) eqn:Hc.
    + now rewrite Read_on_closed.
    + rewrite Read_on_open by assumption.
      destruct (Receive (stream r)) as [[|] s'] eqn:Hr; [|reflexivity].
      pose proof (Receive_true_Err_nil _ _ Hr) as He.
      simpl in *. now rewrite He.
  - rewrite Close_unfold. simpl. now rewrite orb_true_r.
  - now rewrite orb_false_r.
Qed.

(** X1.  On a server stream of connect, [IsClosed] after any sequence of
    calls is true exactly when the stream was closed at the start, or one
    of the calls was a [Close], or one of the [Read]s returned [io.EOF]. *)
Theorem IsClosed_tracks_closing (cs : list call) : forall r,
  IsClosed (run cs r).2 = IsClosed r || existsb closing (run cs r).1.
Proof.
  induction cs as [|c cs IH]; intros r; simpl.
  - now rewrite orb_false_r.
  - pose proof (step_closing c r) as Hstep.
    destruct (step c r) as [o r1]. simpl in Hstep.
    specialize (IH r1). destruct (run cs r1) as [os r2]. simpl in *.
    rewrite IH, Hstep. now rewrite orb_assoc.
Qed.

(** Reading as many times as the connection has elements left. *)
Lemma Read_all (l : list Res) : forall r,
  isClosed r = false ->
  connect.constructErr (stream r) = None ->
  connect.receiveErr (stream r) = None ->
  connect.responseClosed (connect.conn (stream r)) = false ->
  connect.incoming (connect.conn (stream r)) = l ->
  (run (replicate (length l) CallRead) r).1
  = map (fun m => ReadReturned (transformer r m) None) l
  /\ isClosed (run (replicate (length l) CallRead) r).2 = false
  /\ (Read (run (replicate (length l) CallRead) r).2).1 = (zero, Some io_EOF)
  /\ isClosed (Read (run (replicate (length l) CallRead) r).2).2 = true.
Proof.
  induction l as [|m l IH]; intros r Ho Hce Hre Hcl Hin; simpl.
  - destruct (Receive_at_end (stream r) Hce Hre Hcl Hin) as [Hstop _].
    rewrite Read_on_open by assumption. rewrite Hstop. auto.
  - destruct (Receive_element (stream r) m l Hce Hre Hcl Hin)
      as (Hok & Hm & He & Hce' & Hre' & Hcl' & Hin' & _).
    rewrite Read_on_open by assumption. rewrite Hok, Hm, He.
    set (r1 := mkResponseStream false (Receive (stream r)).2 (transformer r)).
    destruct (IH r1 eq_refl Hce' Hre' Hcl' Hin') as (Hout & Hopen & Hlast & Hend).
    destruct (run (replicate (length l) CallRead) r1) as [os r2].
    simpl in *. rewrite Hout. auto.
Qed.

(** X8.  A stream wrapped around a connection that has not been read
    delivers the projection of every element, in order and with a nil
    error; the [Read] after the last element returns the zero value with
    [io.EOF] and closes the stream, whatever ended the connection. *)
Theorem wrapStream_delivers_in_order (s : connect.ServerStreamForClient Res)
    (f : Res -> TOut) (l : list Res) :
  connect.constructErr s = None ->
  connect.receiveErr s = None ->
  connect.responseClosed (connect.conn s) = false ->
  connect.incoming (connect.conn s) = l ->
  (run (replicate (length l) CallRead) (wrapStream s f)).1
  = map (fun m => ReadReturned (f m) None) l
  /\ IsClosed (run (replicate (length l) CallRead) (wrapStream s f)).2 = false
  /\ (run (replicate (Datatypes.S (length l)) CallRead) (wrapStream s f)).1
     = (map (fun m => ReadReturned (f m) None) l ++ [ReadReturned zero (Some io_EOF)])%list
  /\ IsClosed (run (replicate (Datatypes.S (length l)) CallRead) (wrapStream s f)).2
     = true.
Proof.
  intros Hce Hre Hcl Hin.
  destruct (Read_all l (wrapStream s f) eq_refl Hce Hre Hcl Hin)
    as (Hout & Hopen & Hlast & Hend).
  assert (forall n r, run (replicate (Datatypes.S n) CallRead) r
                      = (((run (replicate n CallRead) r).1
                          ++ [ReadReturned (Read (run (replicate n CallRead) r).2).1.1
                                           (Read (run (replicate n CallRead) r).2).1.2])%list,
                         (Read (run (replicate n CallRead) r).2).2)) as Hsnoc.
  { clear. induction n as [|n IH]; intros r.
    - simpl. now destruct (Read r) as [[v e] r'].
    - change (replicate (Datatypes.S (Datatypes.S n)) CallRead)
        with (CallRead :: replicate (Datatypes.S n) CallRead).
      change (replicate (Datatypes.S n) CallRead)
        with (CallRead :: replicate n CallRead) at 2 3 4 5.
      cbn [run step]. destruct (Read r) as [[v e] r1].
      rewrite IH. now destruct (run (replicate n CallRead) r1). }
  rewrite Hsnoc. simpl fst. simpl snd. unfold IsClosed.
  rewrite Hout, Hlast. auto.
Qed.

End ConnectStreamProps.

(** * Further properties of the client *)


(** X4.  The hook made by [newAuthInterceptor] hands [next] the request
    with the same message and with headers that differ in one field
    only: [x-api-key], under any spelling of its name, now holds the key
    as its single value, whatever it held before. *)
Theorem newAuthInterceptor_sets_only_key (apiKey : string)
    (req : connect.Request string) :
  exists req',
    (forall next, newAuthInterceptor apiKey next req = next req')
    /\ connect.req_Msg req' = connect.req_Msg req
    /\ connect.req_Header req' !! "X-Api-Key" = Some [apiKey]
    /\ (forall name, http.CanonicalMIMEHeaderKey name = "X-Api-Key" ->
          http.Header_Get (connect.req_Header req') name = apiKey)
    /\ (forall name, http.CanonicalMIMEHeaderKey name <> "X-Api-Key" ->
          connect.req_Header req' !! http.CanonicalMIMEHeaderKey name
          = connect.req_Header req !! http.CanonicalMIMEHeaderKey name).
Proof.
  eexists. split; [intros next; reflexivity|]. simpl.
  unfold http.Header_Get, http.Header_Set.
  change (http.CanonicalMIMEHeaderKey "x-api-key") with "X-Api-Key".
  split; [reflexivity|]. split; [apply lookup_insert_eq|]. split.
  - intros name ->. now rewrite lookup_insert_eq.
  - intros name Hne. now rewrite lookup_insert_ne.
Qed.




(** * The further properties at concrete inputs *)

(** [helloTokens] closed before anything was read: the reads that follow
    leave both elements where they are. *)
Lemma closed_reads_leave_transport_run :
  (isClosed (Close helloTokens).2 = true
   /\ Forall (fun c => c <> CallClose) [CallRead; CallIsClosed; CallRead])
  /\ (run [CallRead; CallIsClosed; CallRead] (Close helloTokens).2).2
     = (Close helloTokens).2.
Proof.
  split.
  - split; [reflexivity | repeat constructor; discriminate].
  - apply (closed_reads_leave_transport (Close helloTokens).2);
      [reflexivity | repeat constructor; discriminate].
Defined.


(** Reading [helloTokens] to its end. *)
Lemma wrapStream_delivers_in_order_run :
  (connect.constructErr (stream helloTokens) = None
   /\ connect.receiveErr (stream helloTokens) = None
   /\ connect.responseClosed (connect.conn (stream helloTokens)) = false
   /\ connect.incoming (connect.conn (stream helloTokens))
      = [chunk "" "Hello"; chunk "" " world"])
  /\ ((run [CallRead; CallRead] helloTokens).1
      = [ReadReturned "Hello" None; ReadReturned " world" None]
      /\ IsClosed (run [CallRead; CallRead] helloTokens).2 = false
      /\ (run [CallRead; CallRead; CallRead] helloTokens).1
         = [ReadReturned "Hello" None; ReadReturned " world" None;
            ReadReturned "" (Some io_EOF)]
      /\ IsClosed (run [CallRead; CallRead; CallRead] helloTokens).2 = true).
Proof.
  split.
  - repeat split.
  - exact (wrapStream_delivers_in_order (stream helloTokens)
             chatCompleteStreamToStringTransformer
             [chunk "" "Hello"; chunk "" " world"]
             eq_refl eq_refl eq_refl eq_refl).
Defined.

